(** * Discount-Code: the pricing rules of [orders/models.py]

    A shallow embedding of the discount engine of the Django project
    (files [orders/models.py] and [products/models.py]) together with the
    properties of its specification.

    Conventions of the embedding.
    - A Python [Decimal] is a rational number ([Q]).  Every amount of the
      program is a decimal with at most four fractional digits (prices and
      fixed discounts have two, a percentage divided by 100 has two), far
      below the 28 significant digits of the default decimal context, so the
      arithmetic of the program is exact.  Python compares decimals by value;
      accordingly numeric equality is [Qeq] ([==]).
    - A Python value that is either a [Decimal] or [None] is an
      [option Decimal].
    - An uncaught exception is the [Raise] case of [result].  The only
      exception that escapes the functions below is [TypeError].
    - Model instances are compared by primary key, as [django.db.models.Model]
      does.
    - [timezone.now().date()] is the parameter [today]; a date is its
      day number.
    - The rows of the database that the methods query are the parameter
      [db]. *)

From Stdlib Require Import ZArith QArith Qabs Qminmax Bool List String Lia.
From Stdlib Require Import Lqa Permutation.
Import ListNotations.

Local Open Scope Q_scope.

(** ** Python values and exceptions *)

Definition Decimal := Q.

Inductive exn : Set :=
| TypeError.

Inductive result (A : Type) : Type :=
| Ok (a : A)
| Raise (e : exn).

Arguments Ok {A} a.
Arguments Raise {A} e.

Definition bind {A B : Type} (r : result A) (k : A -> result B) : result B :=
  match r with
  | Ok a => k a
  | Raise e => Raise e
  end.

Notation "x <- r ;; k" := (bind r (fun x => k))
  (at level 61, r at next level, right associativity).

(** [a <= b] and [a < b] on decimals, as booleans. *)
Definition Qlt_bool (a b : Q) : bool := negb (Qle_bool b a).

(** ** [round(x, 2)] on a [Decimal]

    [Decimal.__round__] with a number of digits is
    [quantize(Decimal('1E-n'))] under the rounding mode of the context,
    [ROUND_HALF_EVEN]. *)

Definition half_even (n : Z) (d : positive) : Z :=
  let fl := (n / Zpos d)%Z in
  let r := (n mod Zpos d)%Z in
  match (2 * r ?= Zpos d)%Z with
  | Lt => fl
  | Gt => (fl + 1)%Z
  | Eq => if Z.even fl then fl else (fl + 1)%Z
  end.

Definition scale (ndigits : nat) : positive :=
  Z.to_pos (10 ^ Z.of_nat ndigits).

Definition round_decimal (x : Decimal) (ndigits : nat) : Decimal :=
  let s := scale ndigits in
  half_even (Qnum x * Zpos s) (Qden x) # s.

(** The builtin [round] applied to a value that may be [None]:
    [round(None, 2)] raises [TypeError]. *)
Definition round (v : option Decimal) (ndigits : nat) : result Decimal :=
  match v with
  | Some x => Ok (round_decimal x ndigits)
  | None => Raise TypeError
  end.

(** ** [products/models.py] *)

#[local] Set Warnings "-register-all".

Module ProductCategory.

Inductive t : Type :=
| Build (pk : Z) (title : string) (parent : option t).

Definition pk (c : t) : Z := match c with Build k _ _ => k end.
Definition title (c : t) : string := match c with Build _ s _ => s end.
Definition parent (c : t) : option t := match c with Build _ _ p => p end.

End ProductCategory.

Module Product.

Record t : Type := Build {
  pk : Z;
  title : string;
  price : Decimal;
  category : ProductCategory.t
}.

End Product.

(** [Model.__eq__]: two instances are equal when their primary keys are;
    [None] equals only [None]. *)
Definition category_eq (a b : option ProductCategory.t) : bool :=
  match a, b with
  | Some x, Some y => (ProductCategory.pk x =? ProductCategory.pk y)%Z
  | None, None => true
  | _, _ => false
  end.

Definition product_eq (a b : option Product.t) : bool :=
  match a, b with
  | Some x, Some y => (Product.pk x =? Product.pk y)%Z
  | None, None => true
  | _, _ => false
  end.

(** ** [orders/models.py] *)

(** [calculate_discount_price(original_price, discount_percentage)].
    The [ValueError] raised for a non-positive argument is caught inside the
    function, which then prints a message and falls off its end: the caller
    receives [None]. *)
Definition calculate_discount_price (original_price : Decimal)
    (discount_percentage : Z) : option Decimal :=
  let discount_percentage := inject_Z discount_percentage in
  if Qle_bool original_price 0 || Qle_bool discount_percentage 0 then
    None
  else
    let discount_amount := original_price * (discount_percentage / 100) in
    let discounted_price := original_price - discount_amount in
    Some discounted_price.

Module DiscountCode.

Record t : Type := Build {
  code : string;
  off_per : option Z;
  off_price : option Decimal;
  min_purchase : option Decimal;
  is_active : bool;
  is_delete : bool;
  is_first : bool;
  exp_date : option Z;
  quantity : option Z;
  category : option ProductCategory.t;
  product : option Product.t
}.

(** [is_valid(self)], with the current date as a parameter. *)
Definition is_valid (today : Z) (self : t) : bool :=
  if negb (is_active self) || is_delete self then false
  else if match quantity self with
          | Some q => (q <=? 0)%Z
          | None => false
          end then false
  else if match off_price self, off_per self with
          | None, None => true
          | _, _ => false
          end then false
  else if match exp_date self with
          | Some d => (d <? today)%Z
          | None => false
          end then false
  else true.

End DiscountCode.

(** [total - x] where [x] may be [None]: [Decimal - None] raises
    [TypeError]. *)
Definition sub (total : Decimal) (x : option Decimal) : result Decimal :=
  match x with
  | Some d => Ok (total - d)
  | None => Raise TypeError
  end.

(** [compute_discount_amount(discount_code, total)].  The local [total] is
    rebound by the branches, possibly to [None]; the value returned is its
    last binding. *)
Definition compute_discount_amount (discount_code : DiscountCode.t)
    (total : Decimal) : result (option Decimal) :=
  if match DiscountCode.min_purchase discount_code with
     | None => true
     | Some m => Qle_bool m total
     end
  then
    match DiscountCode.off_price discount_code,
          DiscountCode.off_per discount_code with
    | Some p, None => Ok (Some (total - p))
    | None, Some per => Ok (calculate_discount_price total per)
    | Some p, Some per =>
        decreased_amount <- sub total (calculate_discount_price total per) ;;
        if Qlt_bool p decreased_amount then Ok (Some (total - p))
        else Ok (calculate_discount_price total per)
    | None, None => Ok (Some total)
    end
  else Ok (Some total).

Module User.

Record t : Type := Build {
  pk : Z;
  username : string
}.

End User.

Module Order.

Record t : Type := Build {
  pk : Z;
  user : User.t;
  is_payment : bool;
  discount_code : option DiscountCode.t
}.

End Order.

Module OrderDetail.

(** The attribute [order] is the related [Order] instance. *)
Record t : Type := Build {
  order : Order.t;
  product : Product.t;
  final_price : option Decimal;
  count : Z
}.

End OrderDetail.

(** The rows the methods read through the ORM. *)
Record Database : Type := {
  order_rows : list Order.t;
  orderdetail_rows : list OrderDetail.t
}.

(** [user.order_set.filter(is_payment=True)] *)
Definition paid_orders (db : Database) (user : User.t) : list Order.t :=
  filter (fun o => (User.pk (Order.user o) =? User.pk user)%Z
                   && Order.is_payment o)
         (order_rows db).

(** Truth value of a query set, and [QuerySet.exists()]: it has a row. *)
Definition exists_ {A : Type} (rows : list A) : bool :=
  match rows with
  | [] => false
  | _ :: _ => true
  end.

(** [order.orderdetail_set.all()].  The reverse manager hands out the rows
    whose foreign key is the order, each with its [order] attribute bound to
    the instance the manager belongs to. *)
Definition orderdetail_set (db : Database) (self : Order.t)
    : list OrderDetail.t :=
  map (fun d => OrderDetail.Build self (OrderDetail.product d)
                  (OrderDetail.final_price d) (OrderDetail.count d))
      (filter (fun d => (Order.pk (OrderDetail.order d) =? Order.pk self)%Z)
              (orderdetail_rows db)).

(** The helpers local to [get_total_price_detail]. *)
Definition is_category_match (discount_code : DiscountCode.t)
    (product : Product.t) : bool :=
  let is_category_matched :=
    category_eq (DiscountCode.category discount_code)
                (Some (Product.category product)) in
  let is_product_available :=
    match DiscountCode.product discount_code with
    | None => true
    | Some _ => false
    end in
  is_category_matched && is_product_available.

Definition is_product_match (discount_code : DiscountCode.t)
    (product : Product.t) : bool :=
  let product_matched :=
    product_eq (DiscountCode.product discount_code) (Some product) in
  let is_category_available :=
    match DiscountCode.category discount_code with
    | None => true
    | Some _ => false
    end in
  product_matched && is_category_available.

(** [x in {a, b}] for model instances or [None]. *)
Definition in_set2 (x a b : option ProductCategory.t) : bool :=
  category_eq x a || category_eq x b.

Definition is_category_and_product_match (discount_code : DiscountCode.t)
    (product : Product.t) : bool :=
  let is_category_matched :=
    in_set2 (DiscountCode.category discount_code)
            (Some (Product.category product))
            (ProductCategory.parent (Product.category product)) in
  let is_product_matched :=
    product_eq (DiscountCode.product discount_code) (Some product) in
  is_category_matched && is_product_matched.

Definition is_discount_applicable (discount_code : DiscountCode.t)
    (product : Product.t) : bool :=
  is_category_match discount_code product
  || is_product_match discount_code product
  || is_category_and_product_match discount_code product.

(** [OrderDetail.get_total_price_detail(self)] *)
Definition get_total_price_detail (db : Database) (today : Z)
    (self : OrderDetail.t) : result Decimal :=
  let base_price :=
    inject_Z (OrderDetail.count self)
    * Product.price (OrderDetail.product self) in
  match Order.discount_code (OrderDetail.order self) with
  | None => round (Some base_price) 2
  | Some discount_code =>
      if negb (DiscountCode.is_valid today discount_code) then
        round (Some base_price) 2
      else if DiscountCode.is_first discount_code
              && exists_ (paid_orders db
                            (Order.user (OrderDetail.order self))) then
        round (Some base_price) 2
      else
        let valid_discount :=
          is_discount_applicable discount_code (OrderDetail.product self) in
        if valid_discount then
          amount <- compute_discount_amount discount_code base_price ;;
          round amount 2
        else round (Some base_price) 2
  end.

(** The loop of [get_total_price_order]: [total_amount] accumulates the line
    totals; an exception raised by a line leaves the loop. *)
Fixpoint accumulate (db : Database) (today : Z)
    (order_details : list OrderDetail.t) (total_amount : Decimal)
    : result Decimal :=
  match order_details with
  | [] => Ok total_amount
  | order_detail :: rest =>
      line <- get_total_price_detail db today order_detail ;;
      accumulate db today rest (total_amount + line)
  end.

(** [Order.get_total_price_order(self)] *)
Definition get_total_price_order (db : Database) (today : Z)
    (self : Order.t) : result Decimal :=
  total_amount <- accumulate db today (orderdetail_set db self) 0 ;;
  match Order.discount_code self with
  | Some discount_code =>
      if DiscountCode.is_valid today discount_code then
        match DiscountCode.category discount_code,
              DiscountCode.product discount_code with
        | None, None =>
            if (DiscountCode.is_first discount_code
                && negb (exists_ (paid_orders db (Order.user self))))
               || negb (DiscountCode.is_first discount_code)
            then
              total_amount <- compute_discount_amount discount_code
                                total_amount ;;
              round total_amount 2
            else round (Some total_amount) 2
        | _, _ => round (Some total_amount) 2
        end
      else round (Some total_amount) 2
  | None => round (Some total_amount) 2
  end.

(** * Vocabulary of the properties *)

(** A decimal with at most two fractional digits. *)
Definition two_places (x : Decimal) : Prop := exists z : Z, x == z # 100.

(** The minimum purchase of a code, when it has one, is reached. *)
Definition min_purchase_met (c : DiscountCode.t) (total : Decimal) : Prop :=
  forall m, DiscountCode.min_purchase c = Some m -> m <= total.

(** [count * product.price], the undiscounted amount of a line. *)
Definition base_price (d : OrderDetail.t) : Decimal :=
  inject_Z (OrderDetail.count d) * Product.price (OrderDetail.product d).

(** The line totals of a list of lines, in order; the first exception
    wins. *)
Fixpoint line_totals (db : Database) (today : Z)
    (order_details : list OrderDetail.t) : result (list Decimal) :=
  match order_details with
  | [] => Ok []
  | d :: rest =>
      line <- get_total_price_detail db today d ;;
      lines <- line_totals db today rest ;;
      Ok (line :: lines)
  end.

Definition sum (amounts : list Decimal) : Decimal :=
  fold_left Qplus amounts 0.

(** The user has an order that is paid. *)
Definition has_paid_order (db : Database) (user : User.t) : Prop :=
  exists o, In o (order_rows db)
            /\ User.pk (Order.user o) = User.pk user
            /\ Order.is_payment o = true.

(** The code is applied to the order as a whole. *)
Definition order_level (db : Database) (today : Z) (self : Order.t)
    (c : DiscountCode.t) : bool :=
  DiscountCode.is_valid today c
  && category_eq (DiscountCode.category c) None
  && product_eq (DiscountCode.product c) None
  && implb (DiscountCode.is_first c)
           (negb (exists_ (paid_orders db (Order.user self)))).

(** The value of a line, 0 standing for a line that raises. *)
Definition line_value (db : Database) (today : Z) (d : OrderDetail.t)
    : Decimal :=
  match get_total_price_detail db today d with
  | Ok line => line
  | Raise _ => 0
  end.

(** * Concrete data *)

(** ** Catalogue *)

(** Concrete catalogue: category 1 is the parent of category 2; category 3
    has no parent. *)
Definition electronics : ProductCategory.t :=
  ProductCategory.Build 1 "electronics" None.
Definition phones : ProductCategory.t :=
  ProductCategory.Build 2 "phones" (Some electronics).
Definition books : ProductCategory.t :=
  ProductCategory.Build 3 "books" None.

Definition phone : Product.t :=
  {| Product.pk := 10; Product.title := "phone";
     Product.price := 30 # 100; Product.category := phones |}.
Definition charger : Product.t :=
  {| Product.pk := 11; Product.title := "charger";
     Product.price := 10; Product.category := phones |}.
Definition novel : Product.t :=
  {| Product.pk := 12; Product.title := "novel";
     Product.price := 10; Product.category := books |}.
Definition leaflet : Product.t :=
  {| Product.pk := 13; Product.title := "leaflet";
     Product.price := 0; Product.category := books |}.

(** ** Codes *)

Definition plain_code : DiscountCode.t :=
  {| DiscountCode.code := "PLAIN";
     DiscountCode.off_per := None;
     DiscountCode.off_price := None;
     DiscountCode.min_purchase := None;
     DiscountCode.is_active := true;
     DiscountCode.is_delete := false;
     DiscountCode.is_first := false;
     DiscountCode.exp_date := None;
     DiscountCode.quantity := None;
     DiscountCode.category := None;
     DiscountCode.product := None |}.

Definition with_discount (per : option Z) (fixed : option Decimal)
    (c : DiscountCode.t) : DiscountCode.t :=
  {| DiscountCode.code := DiscountCode.code c;
     DiscountCode.off_per := per;
     DiscountCode.off_price := fixed;
     DiscountCode.min_purchase := DiscountCode.min_purchase c;
     DiscountCode.is_active := DiscountCode.is_active c;
     DiscountCode.is_delete := DiscountCode.is_delete c;
     DiscountCode.is_first := DiscountCode.is_first c;
     DiscountCode.exp_date := DiscountCode.exp_date c;
     DiscountCode.quantity := DiscountCode.quantity c;
     DiscountCode.category := DiscountCode.category c;
     DiscountCode.product := DiscountCode.product c |}.

Definition with_min_purchase (m : option Decimal) (c : DiscountCode.t)
    : DiscountCode.t :=
  {| DiscountCode.code := DiscountCode.code c;
     DiscountCode.off_per := DiscountCode.off_per c;
     DiscountCode.off_price := DiscountCode.off_price c;
     DiscountCode.min_purchase := m;
     DiscountCode.is_active := DiscountCode.is_active c;
     DiscountCode.is_delete := DiscountCode.is_delete c;
     DiscountCode.is_first := DiscountCode.is_first c;
     DiscountCode.exp_date := DiscountCode.exp_date c;
     DiscountCode.quantity := DiscountCode.quantity c;
     DiscountCode.category := DiscountCode.category c;
     DiscountCode.product := DiscountCode.product c |}.

Definition with_scope (cat : option ProductCategory.t)
    (prod : option Product.t) (c : DiscountCode.t) : DiscountCode.t :=
  {| DiscountCode.code := DiscountCode.code c;
     DiscountCode.off_per := DiscountCode.off_per c;
     DiscountCode.off_price := DiscountCode.off_price c;
     DiscountCode.min_purchase := DiscountCode.min_purchase c;
     DiscountCode.is_active := DiscountCode.is_active c;
     DiscountCode.is_delete := DiscountCode.is_delete c;
     DiscountCode.is_first := DiscountCode.is_first c;
     DiscountCode.exp_date := DiscountCode.exp_date c;
     DiscountCode.quantity := DiscountCode.quantity c;
     DiscountCode.category := cat;
     DiscountCode.product := prod |}.

Definition with_exp_date (d : option Z) (c : DiscountCode.t)
    : DiscountCode.t :=
  {| DiscountCode.code := DiscountCode.code c;
     DiscountCode.off_per := DiscountCode.off_per c;
     DiscountCode.off_price := DiscountCode.off_price c;
     DiscountCode.min_purchase := DiscountCode.min_purchase c;
     DiscountCode.is_active := DiscountCode.is_active c;
     DiscountCode.is_delete := DiscountCode.is_delete c;
     DiscountCode.is_first := DiscountCode.is_first c;
     DiscountCode.exp_date := d;
     DiscountCode.quantity := DiscountCode.quantity c;
     DiscountCode.category := DiscountCode.category c;
     DiscountCode.product := DiscountCode.product c |}.

Definition first_only (c : DiscountCode.t) : DiscountCode.t :=
  {| DiscountCode.code := DiscountCode.code c;
     DiscountCode.off_per := DiscountCode.off_per c;
     DiscountCode.off_price := DiscountCode.off_price c;
     DiscountCode.min_purchase := DiscountCode.min_purchase c;
     DiscountCode.is_active := DiscountCode.is_active c;
     DiscountCode.is_delete := DiscountCode.is_delete c;
     DiscountCode.is_first := true;
     DiscountCode.exp_date := DiscountCode.exp_date c;
     DiscountCode.quantity := DiscountCode.quantity c;
     DiscountCode.category := DiscountCode.category c;
     DiscountCode.product := DiscountCode.product c |}.

(** Zero percent off the product [novel]; ten percent off the free product
    [leaflet]. *)
Definition novel_0 : DiscountCode.t :=
  with_scope None (Some novel) (with_discount (Some 0%Z) None plain_code).
Definition leaflet_10 : DiscountCode.t :=
  with_scope None (Some leaflet) (with_discount (Some 10%Z) None plain_code).

(** Ten percent off the whole order, from a total of 50 on. *)
Definition order_10_from_50 : DiscountCode.t :=
  with_min_purchase (Some 50) (with_discount (Some 10%Z) None plain_code).

(** ** Orders *)

(** Concrete orders.  Alice has one paid order; Bob has none. *)
Definition alice : User.t := {| User.pk := 1; User.username := "alice" |}.
Definition bob : User.t := {| User.pk := 2; User.username := "bob" |}.

Definition order_of (pk : Z) (user : User.t) (paid : bool)
    (c : option DiscountCode.t) : Order.t :=
  {| Order.pk := pk; Order.user := user; Order.is_payment := paid;
     Order.discount_code := c |}.

Definition line_of (o : Order.t) (p : Product.t) (n : Z) : OrderDetail.t :=
  {| OrderDetail.order := o; OrderDetail.product := p;
     OrderDetail.final_price := None; OrderDetail.count := n |}.

(** Five percent off the category [phones]. *)
Definition phones_5 : DiscountCode.t :=
  with_scope (Some phones) None (with_discount (Some 5%Z) None plain_code).

Definition two_phones : Order.t := order_of 1 bob false (Some phones_5).

Definition two_phones_db : Database :=
  {| order_rows := [two_phones];
     orderdetail_rows := [line_of two_phones phone 1;
                          line_of two_phones phone 1] |}.

(** Alice, who has a paid order, places an order of two novels with a
    first-order code of fifty percent: the total is the undiscounted 20. *)
Definition first_50 : DiscountCode.t :=
  first_only (with_discount (Some 50%Z) (Some 3) plain_code).

Definition alice_paid : Order.t := order_of 1 alice true None.
Definition alice_second : Order.t := order_of 2 alice false (Some first_50).

Definition alice_db : Database :=
  {| order_rows := [alice_paid; alice_second];
     orderdetail_rows := [line_of alice_paid charger 1;
                          line_of alice_second novel 2] |}.

Definition bob_novel : Order.t := order_of 1 bob false (Some novel_0).
Definition bob_leaflet : Order.t := order_of 2 bob false (Some leaflet_10).

Definition bob_db : Database :=
  {| order_rows := [bob_novel; bob_leaflet];
     orderdetail_rows := [line_of bob_novel novel 1;
                          line_of bob_leaflet leaflet 1] |}.

Definition empty_order (c : DiscountCode.t) : Order.t :=
  order_of 1 bob false (Some c).

Definition empty_db (c : DiscountCode.t) : Database :=
  {| order_rows := [empty_order c]; orderdetail_rows := [] |}.

(** Ten percent off the whole order. *)
Definition order_10 : DiscountCode.t :=
  with_discount (Some 10%Z) None plain_code.




(** Alice's only order, made with a first-order code and stored as paid. *)
Definition alice_first_paid : Order.t :=
  order_of 3 alice true (Some first_50).

Definition alice_first_paid_db : Database :=
  {| order_rows := [alice_first_paid];
     orderdetail_rows := [line_of alice_first_paid novel 2] |}.

(** * Properties *)

(** ** Comparison of decimals *)

Lemma Qlt_bool_iff (a b : Q) : Qlt_bool a b = true <-> a < b.
Proof.
  unfold Qlt_bool. rewrite negb_true_iff.
  split; intro H.
  - apply Qnot_le_lt. intro Hle. apply Qle_bool_iff in Hle. congruence.
  - destruct (Qle_bool b a) eqn:E; [|reflexivity].
    apply Qle_bool_iff in E. exfalso. exact (Qlt_not_le _ _ H E).
Qed.

Lemma Qle_bool_false_iff (a b : Q) : Qle_bool a b = false <-> b < a.
Proof.
  rewrite <- Qlt_bool_iff. unfold Qlt_bool.
  destruct (Qle_bool a b); simpl; split; congruence.
Qed.

Lemma Qle_bool_compat (a b c : Q) : b == c -> Qle_bool a b = Qle_bool a c.
Proof.
  intro H. destruct (Qle_bool a c) eqn:E.
  - apply Qle_bool_iff. apply Qle_bool_iff in E. rewrite H. exact E.
  - apply Qle_bool_false_iff. apply Qle_bool_false_iff in E.
    rewrite H. exact E.
Qed.

(** ** Rounding *)

Lemma round_decimal_two_places (x : Decimal) : two_places (round_decimal x 2).
Proof. exists (half_even (Qnum x * 100) (Qden x)). reflexivity. Qed.

(** Rounding a value that already has two fractional digits leaves it as it
    is. *)
Lemma round_decimal_exact (x : Decimal) :
  two_places x -> round_decimal x 2 == x.
Proof.
  intros [z Hz]. destruct x as [n d].
  unfold Qeq in Hz; simpl in Hz.
  unfold round_decimal, half_even; simpl Qnum; simpl Qden.
  change (Z.pos (scale 2)) with 100%Z.
  rewrite Hz, Z_div_mult by reflexivity.
  rewrite Z_mod_mult. simpl Z.mul. simpl Z.compare.
  unfold Qeq; simpl. change (Z.pos (scale 2)) with 100%Z. lia.
Qed.

Lemma two_places_plus (x y : Decimal) :
  two_places x -> two_places y -> two_places (x + y).
Proof.
  intros [a Ha] [b Hb]. exists (a + b)%Z.
  rewrite Ha, Hb. unfold Qeq, Qplus; simpl. lia.
Qed.

(** [half_even n d] is an integer nearest to [n / d]. *)
Lemma half_even_nearest (n : Z) (d : positive) :
  (2 * Z.abs (half_even n d * Zpos d - n) <= Zpos d)%Z.
Proof.
  unfold half_even.
  pose proof (Z.div_mod n (Zpos d) ltac:(lia)) as Hdm.
  pose proof (Z.mod_pos_bound n (Zpos d) ltac:(lia)) as Hr.
  set (fl := (n / Zpos d)%Z) in *. set (r := (n mod Zpos d)%Z) in *.
  destruct (Z.compare_spec (2 * r) (Zpos d)) as [E|E|E];
    [destruct (Z.even fl)|..]; nia.
Qed.

(** The rounded value is within half a hundredth of the amount. *)
Lemma round_decimal_nearest (x : Decimal) :
  Qabs (round_decimal x 2 - x) <= 1 # 200.
Proof.
  destruct x as [n d].
  pose proof (half_even_nearest (n * 100) d) as H.
  unfold round_decimal. simpl Qnum; simpl Qden.
  change (Z.pos (scale 2)) with 100%Z.
  set (h := half_even (n * 100) d) in *.
  apply Qabs_Qle_condition.
  unfold Qle, Qminus, Qplus, Qopp; simpl.
  change (Z.pos (scale 2 * d)) with (100 * Z.pos d)%Z.
  change (Z.pos (scale 2)) with 100%Z.
  split; lia.
Qed.

(** Ties go to the even hundredth. *)
Example round_decimal_ties :
  round_decimal (285 # 1000) 2 = 28 # 100
  /\ round_decimal (295 # 1000) 2 = 30 # 100
  /\ round_decimal (-285 # 1000) 2 = -28 # 100
  /\ round_decimal (2851 # 10000) 2 = 29 # 100.
Proof. repeat split. Qed.

(** ** The discount calculator *)

Lemma min_purchase_met_guard (c : DiscountCode.t) (total : Decimal) :
  min_purchase_met c total ->
  match DiscountCode.min_purchase c with
  | None => true
  | Some m => Qle_bool m total
  end = true.
Proof.
  unfold min_purchase_met. intro H.
  destruct (DiscountCode.min_purchase c) as [m|]; [|reflexivity].
  apply Qle_bool_iff, H. reflexivity.
Qed.

Lemma calculate_discount_price_positive (total : Decimal) (per : Z) :
  0 < total -> (0 < per)%Z ->
  calculate_discount_price total per
  = Some (total - total * (inject_Z per / 100)).
Proof.
  intros Ht Hp. unfold calculate_discount_price.
  assert (E1 : Qle_bool total 0 = false) by (apply Qle_bool_false_iff; exact Ht).
  assert (E2 : Qle_bool (inject_Z per) 0 = false).
  { apply Qle_bool_false_iff. unfold Qlt; simpl. lia. }
  rewrite E1, E2. reflexivity.
Qed.

Lemma calculate_discount_price_non_positive (total : Decimal) (per : Z) :
  total <= 0 \/ (per <= 0)%Z -> calculate_discount_price total per = None.
Proof.
  intros [H|H]; unfold calculate_discount_price.
  - apply Qle_bool_iff in H. rewrite H. reflexivity.
  - assert (E : Qle_bool (inject_Z per) 0 = true).
    { apply Qle_bool_iff. unfold Qle; simpl. lia. }
    rewrite E, orb_true_r. reflexivity.
Qed.

(** C6.  When a code has a minimum purchase and the total is strictly below
    it, [compute_discount_amount] returns the total it was given: a value,
    not an exception. *)
Theorem compute_discount_amount_below_min_purchase
    (c : DiscountCode.t) (total m : Decimal) :
  DiscountCode.min_purchase c = Some m ->
  total < m ->
  compute_discount_amount c total = Ok (Some total).
Proof.
  intros Hm Hlt. unfold compute_discount_amount. rewrite Hm.
  apply Qle_bool_false_iff in Hlt. rewrite Hlt. reflexivity.
Qed.

(** C7.  A code with a fixed discount and no percentage, whose minimum
    purchase is reached: [compute_discount_amount] returns exactly
    [total - off_price], with no floor at zero. *)
Theorem compute_discount_amount_fixed_only
    (today : Z) (c : DiscountCode.t) (total p : Decimal) :
  DiscountCode.is_valid today c = true ->
  DiscountCode.off_price c = Some p ->
  DiscountCode.off_per c = None ->
  min_purchase_met c total ->
  compute_discount_amount c total = Ok (Some (total - p)).
Proof.
  intros _ Hp Hper Hmin. unfold compute_discount_amount.
  rewrite (min_purchase_met_guard _ _ Hmin), Hp, Hper. reflexivity.
Qed.

(** C1, as amended.  A code with both a percentage and a fixed discount,
    minimum purchase reached, total positive and percentage positive: with
    [percentage_result = total - total * off_per / 100] and
    [reduction = total - percentage_result], the function returns
    [total - off_price] when [reduction > off_price] and the percentage
    result otherwise; that is [total] less the smaller of the two
    reductions. *)
Theorem compute_discount_amount_both
    (today : Z) (c : DiscountCode.t) (total p : Decimal) (per : Z) :
  DiscountCode.is_valid today c = true ->
  DiscountCode.off_price c = Some p ->
  DiscountCode.off_per c = Some per ->
  min_purchase_met c total ->
  0 < total ->
  (0 < per)%Z ->
  let percentage_result := total - total * (inject_Z per / 100) in
  let reduction := total - percentage_result in
  calculate_discount_price total per = Some percentage_result
  /\ (p < reduction ->
      compute_discount_amount c total = Ok (Some (total - p)))
  /\ (reduction <= p ->
      compute_discount_amount c total = Ok (Some percentage_result))
  /\ exists r, compute_discount_amount c total = Ok (Some r)
               /\ r == total - Qmin reduction p.
Proof.
  intros _ Hp Hper Hmin Ht Hpos percentage_result reduction.
  pose proof (calculate_discount_price_positive total per Ht Hpos) as Hc.
  fold percentage_result in Hc.
  assert (Hrun : compute_discount_amount c total
                 = if Qlt_bool p reduction then Ok (Some (total - p))
                   else Ok (Some percentage_result)).
  { unfold compute_discount_amount.
    rewrite (min_purchase_met_guard _ _ Hmin), Hp, Hper, Hc. reflexivity. }
  split; [exact Hc|]. split; [|split].
  - intro Hlt. apply Qlt_bool_iff in Hlt. rewrite Hrun, Hlt. reflexivity.
  - intro Hle. rewrite Hrun.
    destruct (Qlt_bool p reduction) eqn:E; [|reflexivity].
    apply Qlt_bool_iff in E. exfalso. exact (Qlt_not_le _ _ E Hle).
  - rewrite Hrun. destruct (Qlt_bool p reduction) eqn:E.
    + exists (total - p). split; [reflexivity|].
      apply Qlt_bool_iff in E.
      rewrite (Q.min_r reduction p) by (apply Qlt_le_weak; exact E).
      reflexivity.
    + exists percentage_result. split; [reflexivity|].
      assert (Hle : reduction <= p).
      { apply Qnot_lt_le. intro H. apply Qlt_bool_iff in H. congruence. }
      rewrite (Q.min_l reduction p) by exact Hle.
      unfold reduction. ring.
Qed.

Lemma min_purchase_met_none (c : DiscountCode.t) (total : Decimal) :
  DiscountCode.min_purchase c = None -> min_purchase_met c total.
Proof. intros H m Hm. congruence. Qed.

Lemma compute_discount_amount_below_min_purchase_witness :
  compute_discount_amount
    (with_min_purchase (Some 50) (with_discount (Some 10%Z) None plain_code))
    20
  = Ok (Some 20).
Proof.
  apply (compute_discount_amount_below_min_purchase _ 20 50).
  - reflexivity.
  - reflexivity.
Defined.

(** base = 10, off_price = 15, no off_per: the result is -5. *)
Lemma compute_discount_amount_fixed_only_witness :
  compute_discount_amount (with_discount None (Some 15) plain_code) 10
  = Ok (Some (10 - 15))
  /\ 10 - 15 == -5 # 1.
Proof.
  split.
  - apply (compute_discount_amount_fixed_only 0
             (with_discount None (Some 15) plain_code) 10 15).
    + reflexivity.
    + reflexivity.
    + reflexivity.
    + apply min_purchase_met_none. reflexivity.
  - reflexivity.
Defined.

(** base = 100, off_per = 50, off_price = 10: the reduction 50 exceeds 10,
    the fixed discount is applied and the result is 90. *)
Lemma compute_discount_amount_both_witness :
  compute_discount_amount
    (with_discount (Some 50%Z) (Some 10) plain_code) 100
  = Ok (Some (100 - 10)).
Proof.
  apply (compute_discount_amount_both 0
           (with_discount (Some 50%Z) (Some 10) plain_code) 100 10 50).
  - reflexivity.
  - reflexivity.
  - reflexivity.
  - apply min_purchase_met_none. reflexivity.
  - reflexivity.
  - lia.
  - reflexivity.
Defined.

(** C1 as stated fails: a valid code with [off_per = 0] and
    [off_price = 10], no minimum purchase, on the positive total 100.  The
    percentage primitive yields [None] and the subtraction
    [total - None] raises [TypeError]; nothing is returned. *)
Lemma compute_discount_amount_both_zero_percent :
  let c := with_discount (Some 0%Z) (Some 10) plain_code in
  DiscountCode.is_valid 0 c = true
  /\ DiscountCode.off_price c = Some 10
  /\ DiscountCode.off_per c = Some 0%Z
  /\ min_purchase_met c 100
  /\ 0 < 100
  /\ compute_discount_amount c 100 = Raise TypeError
  /\ ~ (exists r, compute_discount_amount c 100 = Ok r).
Proof.
  cbv zeta. repeat split.
  - intros m Hm. discriminate Hm.
  - intros [r Hr]. discriminate Hr.
Qed.

(** ** Validity of a code *)

(** C3.  [is_valid] is false exactly when the code is not active, or is
    soft-deleted, or has a quantity that is at most 0, or has neither
    discount set, or has an expiry date strictly before today.  A code
    that expires today is not rejected for its date. *)
Theorem is_valid_false_iff (today : Z) (c : DiscountCode.t) :
  (DiscountCode.is_valid today c = false <->
     DiscountCode.is_active c = false
     \/ DiscountCode.is_delete c = true
     \/ (exists q, DiscountCode.quantity c = Some q /\ (q <= 0)%Z)
     \/ (DiscountCode.off_price c = None /\ DiscountCode.off_per c = None)
     \/ (exists d, DiscountCode.exp_date c = Some d /\ (d < today)%Z))
  /\ DiscountCode.is_valid today (with_exp_date (Some today) c)
     = DiscountCode.is_valid today (with_exp_date None c).
Proof.
  split.
  - unfold DiscountCode.is_valid.
    destruct (DiscountCode.is_active c), (DiscountCode.is_delete c);
      simpl; try (split; [intros _; auto | reflexivity]).
    destruct (DiscountCode.quantity c) as [q|];
      [destruct (Z.leb_spec q 0) as [Hq0|Hq0]|];
      destruct (DiscountCode.off_price c) as [p|];
      destruct (DiscountCode.off_per c) as [r|];
      destruct (DiscountCode.exp_date c) as [d|];
      try destruct (Z.ltb_spec d today) as [Hd0|Hd0];
      (split;
       [ intro Hv; try discriminate Hv;
         first [ right; right; left; eexists; split; [reflexivity|lia]
               | right; right; right; left; split; reflexivity
               | right; right; right; right; eexists; split;
                 [reflexivity|lia] ]
       | intro Hv; try reflexivity;
         destruct Hv as [Hv|[Hv|[(q' & E & Hq)|[(E1 & E2)|(d' & E & Hd)]]]];
         try discriminate; inversion E; subst; lia ]).
  - unfold DiscountCode.is_valid; simpl. rewrite Z.ltb_irrefl. reflexivity.
Qed.

(** ** Scope of a code *)

(** C4.  The product's category has a parent [P] and the code has both a
    category [cc] and a product [cp].  The code matches the product exactly
    when [cp] is that product and [cc] is the product's category or [P];
    this is the category-and-product rule, the other two rules being
    false.  In particular with [cc = P] the match is decided by the
    product alone. *)
Theorem is_category_and_product_match_iff
    (discount_code : DiscountCode.t) (product : Product.t)
    (P cc : ProductCategory.t) (cp : Product.t) :
  ProductCategory.parent (Product.category product) = Some P ->
  DiscountCode.category discount_code = Some cc ->
  DiscountCode.product discount_code = Some cp ->
  (is_category_and_product_match discount_code product = true <->
     Product.pk cp = Product.pk product
     /\ (ProductCategory.pk cc = ProductCategory.pk (Product.category product)
         \/ ProductCategory.pk cc = ProductCategory.pk P))
  /\ is_discount_applicable discount_code product
     = is_category_and_product_match discount_code product
  /\ (ProductCategory.pk cc = ProductCategory.pk P ->
      is_discount_applicable discount_code product
      = (Product.pk cp =? Product.pk product)%Z).
Proof.
  intros HP Hc Hp.
  assert (Hcp : is_category_and_product_match discount_code product
                = ((ProductCategory.pk cc
                    =? ProductCategory.pk (Product.category product))%Z
                   || (ProductCategory.pk cc =? ProductCategory.pk P)%Z)
                  && (Product.pk cp =? Product.pk product)%Z).
  { unfold is_category_and_product_match, in_set2.
    rewrite HP, Hc, Hp. reflexivity. }
  assert (Happ : is_discount_applicable discount_code product
                 = is_category_and_product_match discount_code product).
  { unfold is_discount_applicable, is_category_match, is_product_match.
    rewrite Hc, Hp. simpl. rewrite !andb_false_r. reflexivity. }
  split; [|split].
  - rewrite Hcp, andb_true_iff, orb_true_iff, !Z.eqb_eq. tauto.
  - exact Happ.
  - intro HeqP. rewrite Happ, Hcp.
    apply Z.eqb_eq in HeqP. rewrite HeqP, orb_true_r. reflexivity.
Qed.

(** Category of the code is the parent [electronics]; the code's product is
    the line's product [phone]: match.  With another product of the same
    category as the code's product: no match. *)
Lemma is_category_and_product_match_iff_witness :
  is_discount_applicable
    (with_scope (Some electronics) (Some phone) plain_code) phone = true
  /\ is_discount_applicable
       (with_scope (Some electronics) (Some charger) plain_code) phone
     = false.
Proof.
  split.
  - apply (proj2 (proj2 (is_category_and_product_match_iff
             (with_scope (Some electronics) (Some phone) plain_code)
             phone electronics electronics phone
             eq_refl eq_refl eq_refl))).
    reflexivity.
  - apply (proj2 (proj2 (is_category_and_product_match_iff
             (with_scope (Some electronics) (Some charger) plain_code)
             phone electronics electronics charger
             eq_refl eq_refl eq_refl))).
    reflexivity.
Defined.

(** C9 as stated fails: the code names the product and no category, and the
    product's category has no parent.  [None] is a member of
    [{product.category, None}], so the product rule and the
    category-and-product rule both hold. *)
Lemma scope_rules_overlap :
  let c := with_scope None (Some novel) plain_code in
  is_product_match c novel = true
  /\ is_category_and_product_match c novel = true.
Proof. split; reflexivity. Qed.

(** C9, as amended.  The category rule excludes the other two rules.  The
    product rule and the category-and-product rule hold together exactly
    when the code has no category, its product is the product of the line,
    and the category of that product has no parent.  Hence never all three,
    and at most one outside that case. *)
Theorem scope_rules_exclusion
    (discount_code : DiscountCode.t) (product : Product.t) :
  is_category_match discount_code product
  && (is_product_match discount_code product
      || is_category_and_product_match discount_code product) = false
  /\ is_product_match discount_code product
     && is_category_and_product_match discount_code product
     = category_eq (DiscountCode.category discount_code) None
       && product_eq (DiscountCode.product discount_code) (Some product)
       && category_eq (ProductCategory.parent (Product.category product))
            None.
Proof.
  unfold is_category_match, is_product_match, is_category_and_product_match,
    in_set2.
  destruct (DiscountCode.category discount_code) as [cc|],
    (DiscountCode.product discount_code) as [cp|],
    (ProductCategory.parent (Product.category product)) as [P|];
    simpl; split;
    rewrite ?andb_false_r, ?andb_true_r, ?orb_false_r, ?andb_diag;
    try reflexivity.
  all: destruct (_ =? _)%Z; reflexivity.
Qed.

(** ** Line and order totals *)

Lemma exists_paid_orders_iff (db : Database) (user : User.t) :
  exists_ (paid_orders db user) = true <-> has_paid_order db user.
Proof.
  unfold has_paid_order, paid_orders. split.
  - destruct (filter _ (order_rows db)) as [|o l] eqn:E; [discriminate|].
    intros _. exists o.
    assert (Hin : In o (filter
              (fun o => (User.pk (Order.user o) =? User.pk user)%Z
                        && Order.is_payment o) (order_rows db))).
    { rewrite E. left. reflexivity. }
    apply filter_In in Hin. destruct Hin as [Hin Hb].
    apply andb_true_iff in Hb. destruct Hb as [Hu Hp].
    apply Z.eqb_eq in Hu. auto.
  - intros (o & Hin & Hu & Hp).
    assert (Hf : In o (filter
              (fun o => (User.pk (Order.user o) =? User.pk user)%Z
                        && Order.is_payment o) (order_rows db))).
    { apply filter_In. split; [exact Hin|].
      apply Z.eqb_eq in Hu. rewrite Hu, Hp. reflexivity. }
    destruct (filter _ (order_rows db)); [destruct Hf | reflexivity].
Qed.

Lemma accumulate_line_totals (db : Database) (today : Z)
    (ds : list OrderDetail.t) (acc : Decimal) :
  accumulate db today ds acc
  = (lines <- line_totals db today ds ;; Ok (fold_left Qplus lines acc)).
Proof.
  revert acc. induction ds as [|d ds IH]; intro acc; simpl.
  - reflexivity.
  - destruct (get_total_price_detail db today d) as [line|e]; simpl.
    + rewrite IH. destruct (line_totals db today ds); reflexivity.
    + reflexivity.
Qed.

(** Every line total that is returned is the rounding of some amount. *)
Lemma get_total_price_detail_rounded (db : Database) (today : Z)
    (d : OrderDetail.t) (line : Decimal) :
  get_total_price_detail db today d = Ok line ->
  exists raw, line = round_decimal raw 2.
Proof.
  unfold get_total_price_detail.
  destruct (Order.discount_code (OrderDetail.order d)) as [c|];
    [|intro H; inversion H; eauto].
  destruct (negb (DiscountCode.is_valid today c));
    [intro H; inversion H; eauto|].
  destruct (DiscountCode.is_first c && _);
    [intro H; inversion H; eauto|].
  destruct (is_discount_applicable c (OrderDetail.product d));
    [|intro H; inversion H; eauto].
  destruct (compute_discount_amount c _) as [[amount|]|e]; simpl;
    intro H; inversion H; eauto.
Qed.

Lemma line_totals_rounded (db : Database) (today : Z)
    (ds : list OrderDetail.t) :
  match line_totals db today ds with
  | Ok lines => Forall (fun line => exists raw, line = round_decimal raw 2)
                       lines
  | Raise _ => True
  end.
Proof.
  induction ds as [|d ds IH]; simpl.
  - constructor.
  - destruct (get_total_price_detail db today d) as [line|e] eqn:E; simpl;
      [|exact I].
    destruct (line_totals db today ds) as [lines|e]; simpl; [|exact I].
    constructor; [|exact IH].
    exact (get_total_price_detail_rounded _ _ _ _ E).
Qed.

(** [get_total_price_order] in terms of the list of line totals. *)
Lemma get_total_price_order_lines (db : Database) (today : Z)
    (self : Order.t) :
  get_total_price_order db today self
  = (lines <- line_totals db today (orderdetail_set db self) ;;
     match Order.discount_code self with
     | Some c =>
         if order_level db today self c then
           total <- compute_discount_amount c (sum lines) ;;
           round total 2
         else round (Some (sum lines)) 2
     | None => round (Some (sum lines)) 2
     end).
Proof.
  unfold get_total_price_order. rewrite accumulate_line_totals.
  destruct (line_totals db today (orderdetail_set db self)) as [lines|e];
    simpl; [|reflexivity].
  fold (sum lines).
  destruct (Order.discount_code self) as [c|]; [|reflexivity].
  unfold order_level.
  destruct (DiscountCode.is_valid today c); simpl; [|reflexivity].
  destruct (DiscountCode.category c), (DiscountCode.product c); simpl;
    try reflexivity.
  destruct (DiscountCode.is_first c),
    (exists_ (paid_orders db (Order.user self))); reflexivity.
Qed.


(** Rounding is local to the line: two lines of 0.30 at five percent off are
    0.285 each, rounded to 0.28, and the order total is 0.56, while the
    unrounded amounts add up to 0.57. *)
Example order_total_sums_rounded_lines :
  line_totals two_phones_db 0 (orderdetail_set two_phones_db two_phones)
  = Ok [28 # 100; 28 # 100]
  /\ get_total_price_order two_phones_db 0 two_phones = Ok (56 # 100)
  /\ round_decimal ((285 # 1000) + (285 # 1000)) 2 = 57 # 100.
Proof. repeat split; vm_compute; reflexivity. Qed.

Lemma orderdetail_set_order (db : Database) (self : Order.t)
    (d : OrderDetail.t) :
  In d (orderdetail_set db self) -> OrderDetail.order d = self.
Proof.
  unfold orderdetail_set. intro H.
  apply in_map_iff in H. destruct H as (d0 & Hd & _).
  subst d. reflexivity.
Qed.

Lemma line_totals_map (db : Database) (today : Z)
    (f : OrderDetail.t -> Decimal) (ds : list OrderDetail.t) :
  (forall d, In d ds -> get_total_price_detail db today d = Ok (f d)) ->
  line_totals db today ds = Ok (map f ds).
Proof.
  induction ds as [|d ds IH]; intro H; simpl.
  - reflexivity.
  - rewrite (H d (or_introl eq_refl)). simpl.
    rewrite IH by (intros d' Hd'; apply H; right; exact Hd').
    reflexivity.
Qed.

Lemma two_places_fold (lines : list Decimal) (acc : Decimal) :
  Forall two_places lines -> two_places acc ->
  two_places (fold_left Qplus lines acc).
Proof.
  intro H. revert acc. induction H as [|x l Hx Hl IH]; intros acc Hacc; simpl.
  - exact Hacc.
  - apply IH. apply two_places_plus; assumption.
Qed.

Lemma two_places_sum_rounded (f : OrderDetail.t -> Decimal)
    (ds : list OrderDetail.t) :
  two_places (sum (map (fun d => round_decimal (f d) 2) ds)).
Proof.
  unfold sum. apply two_places_fold.
  - apply Forall_forall. intros x Hx.
    apply in_map_iff in Hx. destruct Hx as (d & <- & _).
    apply round_decimal_two_places.
  - exists 0%Z. reflexivity.
Qed.

(** The line total of an order whose first-order code is forfeited. *)
Lemma get_total_price_detail_forfeited (db : Database) (today : Z)
    (d : OrderDetail.t) (c : DiscountCode.t) :
  Order.discount_code (OrderDetail.order d) = Some c ->
  DiscountCode.is_first c = true ->
  has_paid_order db (Order.user (OrderDetail.order d)) ->
  get_total_price_detail db today d = Ok (round_decimal (base_price d) 2).
Proof.
  intros Hc Hf Hpaid. apply exists_paid_orders_iff in Hpaid.
  unfold get_total_price_detail. rewrite Hc, Hf, Hpaid. simpl.
  destruct (negb (DiscountCode.is_valid today c)); reflexivity.
Qed.

(** C5.  The order carries a valid first-order code and its user already
    has a paid order.  Every line of the order is worth its rounded base
    [round(count * price, 2)], and the order total is the sum of these
    rounded bases, whatever [off_per] and [off_price] are. *)
Theorem first_order_code_forfeited (db : Database) (today : Z)
    (self : Order.t) (c : DiscountCode.t) :
  Order.discount_code self = Some c ->
  DiscountCode.is_valid today c = true ->
  DiscountCode.is_first c = true ->
  has_paid_order db (Order.user self) ->
  (forall d, OrderDetail.order d = self ->
     get_total_price_detail db today d
     = Ok (round_decimal (base_price d) 2))
  /\ exists total,
       get_total_price_order db today self = Ok total
       /\ total
          = round_decimal
              (sum (map (fun d => round_decimal (base_price d) 2)
                        (orderdetail_set db self))) 2
       /\ total == sum (map (fun d => round_decimal (base_price d) 2)
                            (orderdetail_set db self)).
Proof.
  intros Hc Hv Hf Hpaid.
  assert (Hline : forall d, OrderDetail.order d = self ->
            get_total_price_detail db today d
            = Ok (round_decimal (base_price d) 2)).
  { intros d Hd. rewrite <- Hd in Hc, Hpaid.
    exact (get_total_price_detail_forfeited db today d c Hc Hf Hpaid). }
  split; [exact Hline|].
  eexists. split; [|split; [reflexivity|]].
  - rewrite get_total_price_order_lines.
    rewrite (line_totals_map db today
               (fun d => round_decimal (base_price d) 2)).
    + simpl. rewrite Hc. unfold order_level.
      apply exists_paid_orders_iff in Hpaid. rewrite Hf, Hpaid. simpl.
      rewrite !andb_false_r. reflexivity.
    + intros d Hd. apply Hline. exact (orderdetail_set_order _ _ _ Hd).
  - apply round_decimal_exact. apply two_places_sum_rounded.
Qed.

Lemma alice_has_paid_order : has_paid_order alice_db alice.
Proof.
  exists alice_paid. split; [left; reflexivity|]. split; reflexivity.
Defined.

Lemma first_order_code_forfeited_witness :
  get_total_price_detail alice_db 0 (line_of alice_second novel 2)
  = Ok (round_decimal (2 * 10) 2)
  /\ exists total,
       get_total_price_order alice_db 0 alice_second = Ok total
       /\ total == 20.
Proof.
  destruct (first_order_code_forfeited alice_db 0 alice_second first_50
              eq_refl eq_refl eq_refl alice_has_paid_order)
    as [Hline (total & Ht & _ & Heq)].
  split.
  - exact (Hline (line_of alice_second novel 2) eq_refl).
  - exists total. split; [exact Ht|]. rewrite Heq. reflexivity.
Defined.

(** ** The absent result of the percentage primitive *)

(** C8.  The percentage primitive returns [None] for a non-positive amount
    or percentage, and its callers do not take [None] for "no discount":
    [compute_discount_amount] hands [None] on when only the percentage is
    set and raises [TypeError] when the fixed discount is set too, and the
    line total raises [TypeError] where the undiscounted amount 10.00 (or
    0.00) was due. *)
Theorem absent_percentage_result_not_handled :
  (forall total per, total <= 0 \/ (per <= 0)%Z ->
     calculate_discount_price total per = None)
  /\ compute_discount_amount novel_0 10 = Ok None
  /\ compute_discount_amount
       (with_discount (Some 0%Z) (Some 10) plain_code) 100
     = Raise TypeError
  /\ DiscountCode.is_valid 0 novel_0 = true
  /\ get_total_price_detail bob_db 0 (line_of bob_novel novel 1)
     = Raise TypeError
  /\ DiscountCode.is_valid 0 leaflet_10 = true
  /\ get_total_price_detail bob_db 0 (line_of bob_leaflet leaflet 1)
     = Raise TypeError.
Proof.
  split; [exact calculate_discount_price_non_positive|].
  repeat split.
Qed.

(** ** An order that sums to zero *)

(** C10 as stated fails: an order without lines and a valid order-wide code
    with only a percentage, whose minimum purchase of 50 is not reached.
    The percentage primitive is not called and the total 0.00 is
    returned. *)
Lemma get_total_price_order_zero_below_min_purchase :
  let c := order_10_from_50 in
  DiscountCode.is_valid 0 c = true
  /\ DiscountCode.category c = None
  /\ DiscountCode.product c = None
  /\ DiscountCode.is_first c = false
  /\ DiscountCode.off_price c = None
  /\ DiscountCode.off_per c = Some 10%Z
  /\ line_totals (empty_db c) 0 (orderdetail_set (empty_db c) (empty_order c))
     = Ok []
  /\ sum [] == 0
  /\ get_total_price_order (empty_db c) 0 (empty_order c) = Ok (0 # 100).
Proof. cbv zeta. repeat split. Qed.

(** C10, as amended.  The lines of the order sum to 0; the code is valid,
    order-wide, not a first-order code, has only a percentage, and has no
    minimum purchase or one that is at most 0.  Then
    [get_total_price_order] raises [TypeError]: the percentage primitive
    yields [None] for the amount 0 and [round(None, 2)] fails. *)
Theorem get_total_price_order_zero_raises (db : Database) (today : Z)
    (self : Order.t) (c : DiscountCode.t) (per : Z) (lines : list Decimal) :
  Order.discount_code self = Some c ->
  DiscountCode.is_valid today c = true ->
  DiscountCode.category c = None ->
  DiscountCode.product c = None ->
  DiscountCode.is_first c = false ->
  DiscountCode.off_price c = None ->
  DiscountCode.off_per c = Some per ->
  (forall m, DiscountCode.min_purchase c = Some m -> m <= 0) ->
  line_totals db today (orderdetail_set db self) = Ok lines ->
  sum lines == 0 ->
  get_total_price_order db today self = Raise TypeError.
Proof.
  intros Hc Hv Hcat Hprod Hfirst Hprice Hper Hmin Hlines Hsum.
  rewrite get_total_price_order_lines, Hlines. simpl. rewrite Hc.
  unfold order_level. rewrite Hv, Hcat, Hprod, Hfirst. simpl.
  assert (Hguard : match DiscountCode.min_purchase c with
                   | None => true
                   | Some m => Qle_bool m (sum lines)
                   end = true).
  { destruct (DiscountCode.min_purchase c) as [m|]; [|reflexivity].
    rewrite (Qle_bool_compat m _ 0 Hsum). apply Qle_bool_iff, Hmin.
    reflexivity. }
  unfold compute_discount_amount. rewrite Hguard, Hprice, Hper.
  rewrite calculate_discount_price_non_positive.
  - reflexivity.
  - left. rewrite Hsum. apply Qle_refl.
Qed.

(** An order without lines and ten percent off the whole order. *)
Lemma get_total_price_order_zero_raises_witness :
  let c := with_discount (Some 10%Z) None plain_code in
  get_total_price_order (empty_db c) 0 (empty_order c) = Raise TypeError.
Proof.
  cbv zeta.
  apply (get_total_price_order_zero_raises _ 0 _
           (with_discount (Some 10%Z) None plain_code) 10 []).
  - reflexivity.
  - reflexivity.
  - reflexivity.
  - reflexivity.
  - reflexivity.
  - reflexivity.
  - reflexivity.
  - intros m Hm. discriminate Hm.
  - reflexivity.
  - reflexivity.
Defined.

(** * Further properties of the code *)

(** ** The percentage primitive and the calculator *)

Lemma inject_Z_pos (z : Z) : (0 < z)%Z -> 0 < inject_Z z.
Proof. intro H. unfold Qlt; simpl. lia. Qed.

Lemma percent_fraction (per : Z) :
  (0 < per <= 100)%Z ->
  0 < inject_Z per / 100 /\ inject_Z per / 100 <= 1.
Proof.
  intros [H1 H2]. unfold Qdiv, Qmult, Qinv, Qlt, Qle; simpl. lia.
Qed.

(** X1.  [calculate_discount_price] yields [None] exactly when the amount
    or the percentage is not positive. *)
Theorem calculate_discount_price_none_iff (total : Decimal) (per : Z) :
  calculate_discount_price total per = None
  <-> total <= 0 \/ (per <= 0)%Z.
Proof.
  split; [|apply calculate_discount_price_non_positive].
  unfold calculate_discount_price.
  destruct (Qle_bool total 0) eqn:E1; simpl.
  - intros _. left. apply Qle_bool_iff. exact E1.
  - destruct (Qle_bool (inject_Z per) 0) eqn:E2; [|discriminate].
    intros _. right. apply Qle_bool_iff in E2.
    unfold Qle in E2; simpl in E2. lia.
Qed.


Lemma min_purchase_met_iff (c : DiscountCode.t) (total : Decimal) :
  match DiscountCode.min_purchase c with
  | None => true
  | Some m => Qle_bool m total
  end = true <-> min_purchase_met c total.
Proof.
  split; [|apply min_purchase_met_guard].
  unfold min_purchase_met.
  destruct (DiscountCode.min_purchase c) as [m|]; intros H m' Hm';
    [|discriminate Hm'].
  inversion Hm'; subst m'. apply Qle_bool_iff. exact H.
Qed.

(** The three outcomes of [compute_discount_amount]. *)
Lemma compute_discount_amount_outcome (c : DiscountCode.t) (total : Decimal) :
  (min_purchase_met c total
   /\ exists per, DiscountCode.off_per c = Some per
                  /\ (total <= 0 \/ (per <= 0)%Z)
                  /\ compute_discount_amount c total
                     = match DiscountCode.off_price c with
                       | Some _ => Raise TypeError
                       | None => Ok None
                       end)
  \/ ((~ (min_purchase_met c total
          /\ exists per, DiscountCode.off_per c = Some per
                         /\ (total <= 0 \/ (per <= 0)%Z)))
      /\ exists r, compute_discount_amount c total = Ok (Some r)).
Proof.
  unfold compute_discount_amount.
  pose proof (min_purchase_met_iff c total) as Hg.
  destruct (match DiscountCode.min_purchase c with
            | None => true
            | Some m => Qle_bool m total
            end).
  - assert (Hmet : min_purchase_met c total) by (apply Hg; reflexivity).
    destruct (DiscountCode.off_per c) as [per|].
    + destruct (calculate_discount_price total per) as [d|] eqn:E.
      * right. split.
        -- intros (_ & per' & Hper & Hnp).
           inversion Hper; subst per'.
           rewrite (calculate_discount_price_non_positive _ _ Hnp) in E.
           discriminate E.
        -- destruct (DiscountCode.off_price c) as [p|]; simpl; eauto.
           destruct (Qlt_bool p (total - d)); eauto.
      * left. split; [exact Hmet|]. exists per.
        split; [reflexivity|]. split.
        -- unfold calculate_discount_price in E.
           destruct (Qle_bool total 0) eqn:E1; simpl in E.
           ++ left. apply Qle_bool_iff. exact E1.
           ++ destruct (Qle_bool (inject_Z per) 0) eqn:E2; [|discriminate].
              right. apply Qle_bool_iff in E2.
              unfold Qle in E2; simpl in E2. lia.
        -- destruct (DiscountCode.off_price c); reflexivity.
    + right. split.
      * intros (_ & per & Hper & _). discriminate Hper.
      * destruct (DiscountCode.off_price c); eauto.
  - right. split.
    + intros (Hmet & _). apply Hg in Hmet. discriminate Hmet.
    + eauto.
Qed.

(** X3.  [compute_discount_amount] raises ([TypeError]) exactly when the
    minimum purchase is reached, both discounts are set, and the total or
    the percentage is not positive. *)
Theorem compute_discount_amount_raises_iff (c : DiscountCode.t)
    (total : Decimal) :
  compute_discount_amount c total = Raise TypeError
  <-> min_purchase_met c total
      /\ (exists p, DiscountCode.off_price c = Some p)
      /\ exists per, DiscountCode.off_per c = Some per
                     /\ (total <= 0 \/ (per <= 0)%Z).
Proof.
  destruct (compute_discount_amount_outcome c total)
    as [(Hmet & per & Hper & Hnp & Hrun)|(Hno & r & Hrun)].
  - rewrite Hrun. destruct (DiscountCode.off_price c) as [p|].
    + split; [intros _|reflexivity]. eauto 8.
    + split; [discriminate|]. intros (_ & (p & Hp) & _). discriminate Hp.
  - rewrite Hrun. split; [discriminate|].
    intros (Hmet & _ & H). exfalso. apply Hno. split; assumption.
Qed.

(** X4.  [compute_discount_amount] returns [None] exactly when the minimum
    purchase is reached, only the percentage is set, and the total or the
    percentage is not positive. *)
Theorem compute_discount_amount_none_iff (c : DiscountCode.t)
    (total : Decimal) :
  compute_discount_amount c total = Ok None
  <-> min_purchase_met c total
      /\ DiscountCode.off_price c = None
      /\ exists per, DiscountCode.off_per c = Some per
                     /\ (total <= 0 \/ (per <= 0)%Z).
Proof.
  destruct (compute_discount_amount_outcome c total)
    as [(Hmet & per & Hper & Hnp & Hrun)|(Hno & r & Hrun)].
  - rewrite Hrun. destruct (DiscountCode.off_price c) as [p|].
    + split; [discriminate|]. intros (_ & Hp & _). discriminate Hp.
    + split; [intros _|reflexivity]. eauto 8.
  - rewrite Hrun. split; [discriminate|].
    intros (Hmet & _ & H). exfalso. apply Hno. split; assumption.
Qed.

Lemma calculate_discount_price_le (total r : Decimal) (per : Z) :
  calculate_discount_price total per = Some r -> r <= total.
Proof.
  unfold calculate_discount_price.
  destruct (Qle_bool total 0) eqn:E1; simpl; [discriminate|].
  destruct (Qle_bool (inject_Z per) 0) eqn:E2; [discriminate|].
  intro H. inversion H; subst r.
  apply Qle_bool_false_iff in E1. apply Qle_bool_false_iff in E2.
  assert (Hk : 0 < inject_Z per / 100).
  { unfold Qdiv. apply Qmult_lt_0_compat; [exact E2|reflexivity]. }
  set (k := inject_Z per / 100) in *. nra.
Qed.

Lemma compute_discount_amount_le (c : DiscountCode.t) (total r : Decimal) :
  (forall p, DiscountCode.off_price c = Some p -> 0 <= p) ->
  compute_discount_amount c total = Ok (Some r) ->
  r <= total.
Proof.
  intros Hp. unfold compute_discount_amount.
  destruct (match DiscountCode.min_purchase c with
            | None => true
            | Some m => Qle_bool m total
            end); [|intro H; inversion H; apply Qle_refl].
  destruct (DiscountCode.off_price c) as [p|],
    (DiscountCode.off_per c) as [per|].
  - specialize (Hp p eq_refl).
    destruct (calculate_discount_price total per) as [d|] eqn:E; simpl;
      [|discriminate].
    destruct (Qlt_bool p (total - d)); intro H; inversion H; subst r.
    + lra.
    + exact (calculate_discount_price_le _ _ _ E).
  - specialize (Hp p eq_refl). intro H; inversion H. lra.
  - intro H; inversion H as [E]. exact (calculate_discount_price_le _ _ _ E).
  - intro H; inversion H. apply Qle_refl.
Qed.

(** X5.  When the fixed discount of the code is not negative, an amount
    returned by [compute_discount_amount] is never above the total it was
    given. *)
Theorem compute_discount_amount_never_increases
    (c : DiscountCode.t) (total r : Decimal) :
  (forall p, DiscountCode.off_price c = Some p -> 0 <= p) ->
  compute_discount_amount c total = Ok (Some r) ->
  r <= total.
Proof. exact (compute_discount_amount_le c total r). Qed.

(** X6.  A code with a percentage and no fixed discount, minimum purchase
    reached, total and percentage positive: the result is
    [total - total * off_per / 100]. *)
Theorem compute_discount_amount_percentage_only
    (c : DiscountCode.t) (total : Decimal) (per : Z) :
  DiscountCode.off_price c = None ->
  DiscountCode.off_per c = Some per ->
  min_purchase_met c total ->
  0 < total ->
  (0 < per)%Z ->
  compute_discount_amount c total
  = Ok (Some (total - total * (inject_Z per / 100))).
Proof.
  intros Hp Hper Hmin Ht Hpos. unfold compute_discount_amount.
  rewrite (min_purchase_met_guard _ _ Hmin), Hp, Hper.
  rewrite (calculate_discount_price_positive _ _ Ht Hpos). reflexivity.
Qed.

(** X7.  With both discounts set, a positive total and a percentage from 1
    to 100, the result is never negative and the reduction never exceeds
    [off_price], even when [off_price] is larger than the total. *)
Theorem compute_discount_amount_both_floor
    (c : DiscountCode.t) (total p : Decimal) (per : Z) :
  DiscountCode.off_price c = Some p ->
  DiscountCode.off_per c = Some per ->
  min_purchase_met c total ->
  0 < total ->
  (0 < per <= 100)%Z ->
  exists r, compute_discount_amount c total = Ok (Some r)
            /\ 0 <= r /\ total - p <= r.
Proof.
  intros Hp Hper Hmin Ht Hpos.
  assert (Hc : calculate_discount_price total per
               = Some (total - total * (inject_Z per / 100))).
  { apply calculate_discount_price_positive; [exact Ht|lia]. }
  destruct (percent_fraction per Hpos) as [Hk1 Hk2].
  unfold compute_discount_amount.
  rewrite (min_purchase_met_guard _ _ Hmin), Hp, Hper, Hc. simpl.
  set (k := inject_Z per / 100) in *.
  destruct (Qlt_bool p (total - (total - total * k))) eqn:E.
  - apply Qlt_bool_iff in E. eexists. split; [reflexivity|]. split; nra.
  - assert (Hle : total - (total - total * k) <= p).
    { apply Qnot_lt_le. intro H. apply Qlt_bool_iff in H. congruence. }
    eexists. split; [reflexivity|]. split; nra.
Qed.

(** X8.  A code that is valid on a day is valid on every earlier day: the
    date can only make a code expire. *)
Theorem is_valid_earlier (today earlier : Z) (c : DiscountCode.t) :
  (earlier <= today)%Z ->
  DiscountCode.is_valid today c = true ->
  DiscountCode.is_valid earlier c = true.
Proof.
  intro Hle. unfold DiscountCode.is_valid.
  destruct (negb (DiscountCode.is_active c) || DiscountCode.is_delete c);
    [discriminate|].
  destruct (match DiscountCode.quantity c with
            | Some q => (q <=? 0)%Z
            | None => false
            end); [discriminate|].
  destruct (match DiscountCode.off_price c, DiscountCode.off_per c with
            | None, None => true
            | _, _ => false
            end); [discriminate|].
  destruct (DiscountCode.exp_date c) as [d|]; [|reflexivity].
  destruct (Z.ltb_spec d today); [discriminate|].
  intros _. destruct (Z.ltb_spec d earlier); [lia|reflexivity].
Qed.

(** X9.  [is_discount_applicable] holds exactly in two cases: the code has
    no product and its category is the category of the product; or the
    code's product is the product and the code's category is absent, the
    category of the product, or the parent of that category. *)
Theorem is_discount_applicable_iff (c : DiscountCode.t) (p : Product.t) :
  is_discount_applicable c p = true
  <-> (DiscountCode.product c = None
       /\ exists cc, DiscountCode.category c = Some cc
                     /\ ProductCategory.pk cc
                        = ProductCategory.pk (Product.category p))
      \/ (exists cp, DiscountCode.product c = Some cp
                     /\ Product.pk cp = Product.pk p
                     /\ (DiscountCode.category c = None
                         \/ exists cc, DiscountCode.category c = Some cc
                              /\ (ProductCategory.pk cc
                                  = ProductCategory.pk (Product.category p)
                                  \/ exists P,
                                       ProductCategory.parent
                                         (Product.category p) = Some P
                                       /\ ProductCategory.pk cc
                                          = ProductCategory.pk P))).
Proof.
  unfold is_discount_applicable, is_category_match, is_product_match,
    is_category_and_product_match, in_set2.
  destruct (DiscountCode.category c) as [cc|],
    (DiscountCode.product c) as [cp|],
    (ProductCategory.parent (Product.category p)) as [P|]; simpl;
    rewrite ?andb_false_r, ?andb_true_r, ?orb_false_r, ?orb_false_l,
      ?orb_diag, ?andb_true_iff, ?orb_true_iff, ?Z.eqb_eq.
  all: split;
    [ intro H
    | intros [(H1 & cc' & H2 & H3)
             |(cp' & H1 & H2 & [H3|(cc' & H3 & [H4|(P' & H4 & H5)])])];
      try discriminate;
      repeat match goal with
             | H : Some _ = Some _ |- _ => inversion H; subst; clear H
             end; try tauto; try congruence ].
  all: try (right; exists cp; split; [reflexivity|]; split; [tauto|];
            first [ left; reflexivity
                  | right; exists cc; split; [reflexivity|];
                    destruct H as [[H|H] H']; [left; exact H|];
                    right; eexists; split; [reflexivity|exact H]
                  | right; exists cc; split; [reflexivity|];
                    left; tauto ]; fail).
  all: try (left; split; [reflexivity|]; exists cc; split;
            [reflexivity|exact H]; fail).
  all: try discriminate.
Qed.
Lemma half_even_tie (n : Z) (d : positive) :
  (2 * Z.abs (half_even n d * Zpos d - n) = Zpos d)%Z ->
  Z.even (half_even n d) = true.
Proof.
  unfold half_even.
  pose proof (Z.div_mod n (Zpos d) ltac:(lia)) as Hdm.
  pose proof (Z.mod_pos_bound n (Zpos d) ltac:(lia)) as Hr.
  set (fl := (n / Zpos d)%Z) in *. set (r := (n mod Zpos d)%Z) in *.
  destruct (Z.compare_spec (2 * r) (Zpos d)) as [E|E|E].
  - intros _. destruct (Z.even fl) eqn:Ev; [exact Ev|].
    rewrite Z.even_add. rewrite Ev. reflexivity.
  - intro H. exfalso. nia.
  - intro H. exfalso. nia.
Qed.

Lemma half_even_le (n n' : Z) (d d' : positive) :
  (n * Zpos d' <= n' * Zpos d)%Z ->
  (half_even n d <= half_even n' d')%Z.
Proof.
  intro Hle.
  pose proof (half_even_nearest n d) as Hn.
  pose proof (half_even_nearest n' d') as Hn'.
  pose proof (half_even_tie n d) as Ht.
  pose proof (half_even_tie n' d') as Ht'.
  set (h := half_even n d) in *. set (h' := half_even n' d') in *.
  destruct (Z_le_gt_dec h h') as [Hok|Hgt]; [exact Hok|exfalso].
  assert (H1 : ((2 * h - 1) * Zpos d <= 2 * n)%Z) by lia.
  assert (H2 : (2 * n' <= (2 * h' + 1) * Zpos d')%Z) by lia.
  assert (H3 : ((2 * h - 1) * (Zpos d * Zpos d')
                <= (2 * h' + 1) * (Zpos d * Zpos d'))%Z) by nia.
  assert (H4 : (2 * h - 1 <= 2 * h' + 1)%Z).
  { apply Z.mul_le_mono_pos_r with (p := (Zpos d * Zpos d')%Z); lia. }
  assert (Hh : h = (h' + 1)%Z) by lia.
  assert (E1 : ((2 * h - 1) * Zpos d = 2 * n)%Z) by nia.
  assert (E2 : (2 * n' = (2 * h' + 1) * Zpos d')%Z) by nia.
  assert (Ev : Z.even h = true) by (apply Ht; lia).
  assert (Ev' : Z.even h' = true) by (apply Ht'; lia).
  rewrite Hh, Z.even_add, Ev' in Ev. discriminate Ev.
Qed.

Lemma round_decimal_le (x y : Decimal) :
  x <= y -> round_decimal x 2 <= round_decimal y 2.
Proof.
  destruct x as [n d], y as [n' d']. unfold Qle; simpl. intro H.
  apply Z.mul_le_mono_nonneg_r; [lia|].
  apply half_even_le. change (Z.pos (scale 2)) with 100%Z. nia.
Qed.


(** *** Line totals *)

(** A code that is consulted for the line: valid and not forfeited. *)
Lemma get_total_price_detail_cases (db : Database) (today : Z)
    (d : OrderDetail.t) :
  (get_total_price_detail db today d = Ok (round_decimal (base_price d) 2)
   /\ ~ (exists c, Order.discount_code (OrderDetail.order d) = Some c
                   /\ DiscountCode.is_valid today c = true
                   /\ (DiscountCode.is_first c = true ->
                       ~ has_paid_order db (Order.user (OrderDetail.order d)))
                   /\ is_discount_applicable c (OrderDetail.product d)
                      = true))
  \/ (exists c, Order.discount_code (OrderDetail.order d) = Some c
                /\ DiscountCode.is_valid today c = true
                /\ (DiscountCode.is_first c = true ->
                    ~ has_paid_order db (Order.user (OrderDetail.order d)))
                /\ is_discount_applicable c (OrderDetail.product d) = true
                /\ get_total_price_detail db today d
                   = (amount <- compute_discount_amount c (base_price d) ;;
                      round amount 2)).
Proof.
  unfold get_total_price_detail. fold (base_price d).
  destruct (Order.discount_code (OrderDetail.order d)) as [c|].
  - destruct (DiscountCode.is_valid today c) eqn:Ev; simpl.
    + pose proof (exists_paid_orders_iff db
                    (Order.user (OrderDetail.order d))) as Hp.
      destruct (DiscountCode.is_first c) eqn:Ef; simpl.
      * destruct (exists_ (paid_orders db
                             (Order.user (OrderDetail.order d)))) eqn:Ex.
        -- left. split; [reflexivity|].
           intros (c' & Hc & _ & Hf & _). inversion Hc; subst c'.
           apply Hf; [exact Ef|]. apply Hp. reflexivity.
        -- destruct (is_discount_applicable c (OrderDetail.product d))
             eqn:Ea.
           ++ right. exists c.
              repeat split; try reflexivity; try assumption.
              intros _ H. apply Hp in H. discriminate H.
           ++ left. split; [reflexivity|].
              intros (c' & Hc & _ & _ & Ha). inversion Hc; subst c'.
              congruence.
      * destruct (is_discount_applicable c (OrderDetail.product d)) eqn:Ea.
        -- right. exists c.
           repeat split; try reflexivity; try assumption.
           intro H. congruence.
        -- left. split; [reflexivity|].
           intros (c' & Hc & _ & _ & Ha). inversion Hc; subst c'.
           congruence.
    + left. split; [reflexivity|].
      intros (c' & Hc & Hv & _). inversion Hc; subst c'. congruence.
  - left. split; [reflexivity|]. intros (c' & Hc & _). discriminate Hc.
Qed.

(** X10.  A line total raises ([TypeError]) exactly when the order has a
    valid code that is not a forfeited first-order code, the code applies to
    the product, its minimum purchase is reached by the base price, it has a
    percentage, and the base price or the percentage is not positive. *)
Theorem get_total_price_detail_raises_iff (db : Database) (today : Z)
    (d : OrderDetail.t) :
  get_total_price_detail db today d = Raise TypeError
  <-> exists c per,
        Order.discount_code (OrderDetail.order d) = Some c
        /\ DiscountCode.is_valid today c = true
        /\ (DiscountCode.is_first c = true ->
            ~ has_paid_order db (Order.user (OrderDetail.order d)))
        /\ is_discount_applicable c (OrderDetail.product d) = true
        /\ min_purchase_met c (base_price d)
        /\ DiscountCode.off_per c = Some per
        /\ (base_price d <= 0 \/ (per <= 0)%Z).
Proof.
  destruct (get_total_price_detail_cases db today d)
    as [(Hrun & Hno)|(c & Hc & Hv & Hf & Ha & Hrun)].
  - rewrite Hrun. split; [discriminate|].
    intros (c & per & Hc & Hv & Hf & Ha & _). exfalso. apply Hno.
    exists c. auto.
  - rewrite Hrun.
    destruct (compute_discount_amount_outcome c (base_price d))
      as [(Hmet & per & Hper & Hnp & Hcomp)|(Hno & r & Hcomp)].
    + split.
      * intros _. exists c, per. auto 10.
      * intros _. rewrite Hcomp.
        destruct (DiscountCode.off_price c); reflexivity.
    + rewrite Hcomp. simpl. split; [discriminate|].
      intros (c' & per & Hc' & _ & _ & _ & Hmet & Hper & Hnp).
      rewrite Hc in Hc'. inversion Hc'; subst c'.
      exfalso. apply Hno. split; [exact Hmet|]. eauto.
Qed.

Lemma is_discount_applicable_order_wide (c : DiscountCode.t)
    (p : Product.t) :
  DiscountCode.category c = None ->
  DiscountCode.product c = None ->
  is_discount_applicable c p = false.
Proof.
  intros Hc Hp.
  unfold is_discount_applicable, is_category_match, is_product_match,
    is_category_and_product_match.
  rewrite Hc, Hp. simpl. rewrite andb_false_r. reflexivity.
Qed.

Lemma get_total_price_detail_unscoped (db : Database) (today : Z)
    (d : OrderDetail.t) (c : DiscountCode.t) :
  Order.discount_code (OrderDetail.order d) = Some c ->
  DiscountCode.category c = None ->
  DiscountCode.product c = None ->
  get_total_price_detail db today d = Ok (round_decimal (base_price d) 2).
Proof.
  intros Hcode Hc Hp.
  destruct (get_total_price_detail_cases db today d)
    as [(Hrun & _)|(c' & Hc' & _ & _ & Ha & _)]; [exact Hrun|].
  rewrite Hcode in Hc'. inversion Hc'; subst c'.
  rewrite (is_discount_applicable_order_wide c _ Hc Hp) in Ha.
  discriminate Ha.
Qed.

(** X11.  A code with neither category nor product never changes a line:
    the line total is the rounded base price. *)
Theorem get_total_price_detail_order_wide (db : Database) (today : Z)
    (d : OrderDetail.t) (c : DiscountCode.t) :
  Order.discount_code (OrderDetail.order d) = Some c ->
  DiscountCode.category c = None ->
  DiscountCode.product c = None ->
  get_total_price_detail db today d = Ok (round_decimal (base_price d) 2).
Proof. exact (get_total_price_detail_unscoped db today d c). Qed.

Lemma get_total_price_detail_le (db : Database) (today : Z)
    (d : OrderDetail.t) (line : Decimal) :
  (forall c p, Order.discount_code (OrderDetail.order d) = Some c ->
               DiscountCode.off_price c = Some p -> 0 <= p) ->
  get_total_price_detail db today d = Ok line ->
  line <= round_decimal (base_price d) 2.
Proof.
  intros Hp.
  destruct (get_total_price_detail_cases db today d)
    as [(Hrun & _)|(c & Hc & _ & _ & _ & Hrun)]; rewrite Hrun.
  - intro H. inversion H. apply Qle_refl.
  - destruct (compute_discount_amount c (base_price d)) as [[r|]|e] eqn:E;
      simpl; try discriminate.
    intro H. inversion H. apply round_decimal_le.
    apply (compute_discount_amount_le c); [|exact E].
    intros p Hoff. exact (Hp c p Hc Hoff).
Qed.

(** X12.  When the fixed discount of the order's code is not negative, a
    line total that is returned is never above the rounded base price. *)
Theorem get_total_price_detail_never_exceeds (db : Database) (today : Z)
    (d : OrderDetail.t) (line : Decimal) :
  (forall c p, Order.discount_code (OrderDetail.order d) = Some c ->
               DiscountCode.off_price c = Some p -> 0 <= p) ->
  get_total_price_detail db today d = Ok line ->
  line <= round_decimal (base_price d) 2.
Proof. exact (get_total_price_detail_le db today d line). Qed.

(** *** Order totals *)

Lemma line_totals_outcome (db : Database) (today : Z)
    (ds : list OrderDetail.t) :
  (Forall (fun d => exists line, get_total_price_detail db today d = Ok line)
          ds
   /\ line_totals db today ds = Ok (map (line_value db today) ds))
  \/ (Exists (fun d => get_total_price_detail db today d = Raise TypeError)
             ds
      /\ line_totals db today ds = Raise TypeError).
Proof.
  induction ds as [|d ds IH]; simpl.
  - left. split; [constructor|reflexivity].
  - unfold line_value at 1.
    destruct (get_total_price_detail db today d) as [line|[]] eqn:E; simpl.
    + destruct IH as [(Hall & Hrun)|(Hex & Hrun)]; rewrite Hrun; simpl.
      * left. split; [|reflexivity]. constructor; eauto.
      * right. split; [|reflexivity]. apply Exists_cons_tl. exact Hex.
    + right. split; [|reflexivity]. apply Exists_cons_hd. exact E.
Qed.

(** X13.  An exception raised by the total of one line of the order makes
    the order total raise. *)
Theorem get_total_price_order_line_raises (db : Database) (today : Z)
    (self : Order.t) (d : OrderDetail.t) (e : exn) :
  In d (orderdetail_set db self) ->
  get_total_price_detail db today d = Raise e ->
  get_total_price_order db today self = Raise TypeError.
Proof.
  intros Hin Hd. rewrite get_total_price_order_lines.
  destruct (line_totals_outcome db today (orderdetail_set db self))
    as [(Hall & _)|(_ & Hrun)].
  - rewrite Forall_forall in Hall. destruct (Hall d Hin) as [line Hl].
    congruence.
  - rewrite Hrun. reflexivity.
Qed.

Lemma line_totals_two_places (db : Database) (today : Z)
    (ds : list OrderDetail.t) (lines : list Decimal) :
  line_totals db today ds = Ok lines -> two_places (sum lines).
Proof.
  intro H. pose proof (line_totals_rounded db today ds) as Hr.
  rewrite H in Hr. unfold sum. apply two_places_fold.
  - eapply Forall_impl; [|exact Hr].
    intros x [raw ->]. apply round_decimal_two_places.
  - exists 0%Z. reflexivity.
Qed.

(** X14.  A code with a category or a product is not applied to the order
    as a whole: the order total is the sum of the line totals. *)
Theorem get_total_price_order_scoped_code (db : Database) (today : Z)
    (self : Order.t) (c : DiscountCode.t) (lines : list Decimal) :
  Order.discount_code self = Some c ->
  DiscountCode.category c <> None \/ DiscountCode.product c <> None ->
  line_totals db today (orderdetail_set db self) = Ok lines ->
  exists total, get_total_price_order db today self = Ok total
                /\ total == sum lines.
Proof.
  intros Hc Hscope Hlines.
  exists (round_decimal (sum lines) 2). split.
  - rewrite get_total_price_order_lines, Hlines. simpl. rewrite Hc.
    unfold order_level.
    destruct (DiscountCode.category c), (DiscountCode.product c);
      simpl; rewrite ?andb_false_r; simpl; try reflexivity.
    destruct Hscope as [H|H]; exfalso; apply H; reflexivity.
  - apply round_decimal_exact.
    exact (line_totals_two_places _ _ _ _ Hlines).
Qed.

Lemma get_total_price_order_undiscounted (db : Database) (today : Z)
    (self : Order.t) :
  (forall d, OrderDetail.order d = self ->
     get_total_price_detail db today d
     = Ok (round_decimal (base_price d) 2)) ->
  match Order.discount_code self with
  | Some c => order_level db today self c = false
  | None => True
  end ->
  exists total,
    get_total_price_order db today self = Ok total
    /\ total == sum (map (fun d => round_decimal (base_price d) 2)
                         (orderdetail_set db self)).
Proof.
  intros Hline Hgate.
  exists (round_decimal
            (sum (map (fun d => round_decimal (base_price d) 2)
                      (orderdetail_set db self))) 2).
  split.
  - rewrite get_total_price_order_lines.
    rewrite (line_totals_map db today
               (fun d => round_decimal (base_price d) 2)).
    + simpl. destruct (Order.discount_code self) as [c|]; [|reflexivity].
      rewrite Hgate. reflexivity.
    + intros d Hd. apply Hline. exact (orderdetail_set_order _ _ _ Hd).
  - apply round_decimal_exact. apply two_places_sum_rounded.
Qed.


(** X16.  The order itself counts among the paid orders of its user: once
    an order with a first-order code is stored as paid, its total is the
    undiscounted sum of the rounded base prices. *)
Theorem get_total_price_order_paid_first_order (db : Database) (today : Z)
    (self : Order.t) (c : DiscountCode.t) :
  In self (order_rows db) ->
  Order.is_payment self = true ->
  Order.discount_code self = Some c ->
  DiscountCode.is_first c = true ->
  exists total,
    get_total_price_order db today self = Ok total
    /\ total == sum (map (fun d => round_decimal (base_price d) 2)
                         (orderdetail_set db self)).
Proof.
  intros Hin Hpaid Hc Hf.
  assert (Hhas : has_paid_order db (Order.user self)).
  { exists self. auto. }
  apply get_total_price_order_undiscounted.
  - intros d Hd. rewrite <- Hd in Hc, Hhas.
    exact (get_total_price_detail_forfeited db today d c Hc Hf Hhas).
  - rewrite Hc. unfold order_level.
    apply exists_paid_orders_iff in Hhas. rewrite Hf, Hhas. simpl.
    rewrite !andb_false_r. reflexivity.
Qed.

(** *** Independence of the row order *)


Lemma fold_left_Qplus_acc (l : list Q) (acc : Q) :
  fold_left Qplus l acc == acc + fold_left Qplus l 0.
Proof.
  revert acc. induction l as [|x l IH]; intro acc; simpl.
  - ring.
  - rewrite (IH (acc + x)), (IH (0 + x)). ring.
Qed.






(** *** Bounds on the order total *)

Lemma sum_map_le {A : Type} (f g : A -> Q) (l : list A) :
  (forall a, In a l -> f a <= g a) ->
  sum (map f l) <= sum (map g l).
Proof.
  unfold sum. induction l as [|a l IH]; intro H; simpl.
  - apply Qle_refl.
  - rewrite (fold_left_Qplus_acc (map f l)),
      (fold_left_Qplus_acc (map g l)).
    apply Qplus_le_compat.
    + apply Qplus_le_compat; [apply Qle_refl|]. apply H. left. reflexivity.
    + apply IH. intros b Hb. apply H. right. exact Hb.
Qed.


(** X18.  When the fixed discount of the code is not negative, an order
    total that is returned is never above the sum of the rounded base prices
    of the lines. *)
Theorem get_total_price_order_never_exceeds (db : Database) (today : Z)
    (self : Order.t) (total : Decimal) :
  (forall c p, Order.discount_code self = Some c ->
               DiscountCode.off_price c = Some p -> 0 <= p) ->
  get_total_price_order db today self = Ok total ->
  total <= sum (map (fun d => round_decimal (base_price d) 2)
                    (orderdetail_set db self)).
Proof.
  intros Hp Hrun. rewrite get_total_price_order_lines in Hrun.
  destruct (line_totals_outcome db today (orderdetail_set db self))
    as [(Hall & Hlines)|(_ & Hlines)]; rewrite Hlines in Hrun;
    [|discriminate Hrun].
  simpl in Hrun.
  set (ds := orderdetail_set db self) in *.
  assert (Hsum : sum (map (line_value db today) ds)
                 <= sum (map (fun d => round_decimal (base_price d) 2) ds)).
  { apply sum_map_le. intros d Hd.
    rewrite Forall_forall in Hall. destruct (Hall d Hd) as [line Hl].
    unfold line_value. rewrite Hl.
    apply (get_total_price_detail_le db today d line); [|exact Hl].
    rewrite (orderdetail_set_order _ _ _ Hd). exact Hp. }
  assert (Hex : round_decimal
                  (sum (map (fun d => round_decimal (base_price d) 2) ds)) 2
                == sum (map (fun d => round_decimal (base_price d) 2) ds)).
  { apply round_decimal_exact. apply two_places_sum_rounded. }
  assert (Hround : forall r, r <= sum (map (line_value db today) ds) ->
            round_decimal r 2
            <= sum (map (fun d => round_decimal (base_price d) 2) ds)).
  { intros r Hr. rewrite <- Hex. apply round_decimal_le.
    apply Qle_trans with (1 := Hr). exact Hsum. }
  destruct (Order.discount_code self) as [c|];
    [destruct (order_level db today self c)|].
  - destruct (compute_discount_amount c _) as [[r|]|e] eqn:E;
      simpl in Hrun; try discriminate Hrun.
    inversion Hrun; subst total. apply Hround.
    apply (compute_discount_amount_le c); [|exact E].
    intros p Hoff. exact (Hp c p eq_refl Hoff).
  - inversion Hrun; subst total. apply Hround. apply Qle_refl.
  - inversion Hrun; subst total. apply Hround. apply Qle_refl.
Qed.



(** ** The further properties on concrete data *)


Lemma compute_discount_amount_never_increases_witness : 100 - 10 <= 100.
Proof.
  apply (compute_discount_amount_never_increases
           (with_discount (Some 50%Z) (Some 10) plain_code) 100 (100 - 10)).
  - intros p H. inversion H. unfold Qle; simpl. lia.
  - reflexivity.
Defined.

Lemma compute_discount_amount_percentage_only_witness :
  compute_discount_amount (with_discount (Some 20%Z) None plain_code) 100
  = Ok (Some (100 - 100 * (inject_Z 20 / 100))).
Proof.
  apply (compute_discount_amount_percentage_only
           (with_discount (Some 20%Z) None plain_code) 100 20).
  - reflexivity.
  - reflexivity.
  - apply min_purchase_met_none. reflexivity.
  - reflexivity.
  - lia.
Defined.

(** A fixed discount of 500 on a total of 100, with fifty percent. *)
Lemma compute_discount_amount_both_floor_witness :
  exists r,
    compute_discount_amount
      (with_discount (Some 50%Z) (Some 500) plain_code) 100 = Ok (Some r)
    /\ 0 <= r /\ 100 - 500 <= r.
Proof.
  apply (compute_discount_amount_both_floor
           (with_discount (Some 50%Z) (Some 500) plain_code) 100 500 50).
  - reflexivity.
  - reflexivity.
  - apply min_purchase_met_none. reflexivity.
  - reflexivity.
  - lia.
Defined.

Lemma is_valid_earlier_witness :
  DiscountCode.is_valid 5 (with_exp_date (Some 10%Z) order_10) = true.
Proof.
  apply (is_valid_earlier 10 5 (with_exp_date (Some 10%Z) order_10)).
  - lia.
  - reflexivity.
Defined.

Lemma get_total_price_detail_order_wide_witness :
  get_total_price_detail (empty_db order_10) 0
    (line_of (empty_order order_10) novel 3)
  = Ok (round_decimal
          (base_price (line_of (empty_order order_10) novel 3)) 2).
Proof.
  apply (get_total_price_detail_order_wide (empty_db order_10) 0
           (line_of (empty_order order_10) novel 3) order_10).
  - reflexivity.
  - reflexivity.
  - reflexivity.
Defined.

Lemma get_total_price_detail_never_exceeds_witness :
  28 # 100 <= round_decimal (base_price (line_of two_phones phone 1)) 2.
Proof.
  apply (get_total_price_detail_never_exceeds two_phones_db 0
           (line_of two_phones phone 1) (28 # 100)).
  - intros c p Hc Hp. inversion Hc; subst c. discriminate Hp.
  - reflexivity.
Defined.

Lemma get_total_price_order_line_raises_witness :
  get_total_price_order bob_db 0 bob_novel = Raise TypeError.
Proof.
  apply (get_total_price_order_line_raises bob_db 0 bob_novel
           (line_of bob_novel novel 1) TypeError).
  - left. reflexivity.
  - reflexivity.
Defined.

Lemma get_total_price_order_scoped_code_witness :
  exists total,
    get_total_price_order two_phones_db 0 two_phones = Ok total
    /\ total == sum [28 # 100; 28 # 100].
Proof.
  apply (get_total_price_order_scoped_code two_phones_db 0 two_phones
           phones_5 [28 # 100; 28 # 100]).
  - reflexivity.
  - left. discriminate.
  - reflexivity.
Defined.


Lemma get_total_price_order_paid_first_order_witness :
  exists total,
    get_total_price_order alice_first_paid_db 0 alice_first_paid = Ok total
    /\ total == sum (map (fun d => round_decimal (base_price d) 2)
                         (orderdetail_set alice_first_paid_db
                                          alice_first_paid)).
Proof.
  apply (get_total_price_order_paid_first_order alice_first_paid_db 0
           alice_first_paid first_50).
  - left. reflexivity.
  - reflexivity.
  - reflexivity.
  - reflexivity.
Defined.


Lemma get_total_price_order_never_exceeds_witness :
  56 # 100 <= sum (map (fun d => round_decimal (base_price d) 2)
                       (orderdetail_set two_phones_db two_phones)).
Proof.
  apply (get_total_price_order_never_exceeds two_phones_db 0 two_phones
           (56 # 100)).
  - intros c p Hc Hp. inversion Hc; subst c. discriminate Hp.
  - reflexivity.
Defined.

